(** * Session login API (app/main.py): a shallow embedding and its properties

    The four handlers of [app/main.py] ([login], [logout], [me], [list_users])
    and the two helpers they call ([find_user_by_username],
    [filter_users_for_role]) are written as programs of a small
    state-and-exception monad over the two pieces of state the module
    touches: the module-level list [USERS] and the request's session.
    The hashing loop of the seeding script [create_users.py] and the
    start-up flags of [app/main.py] are embedded beside them. *)

From stdpp Require Import gmap strings list fin_maps.

Local Open Scope string_scope.

(** ** Data *)

(** A JSON object with string fields: a user record of [usuarios.json] (the
    seeding script writes the keys "id", "username", "password", "nombre",
    "email" and "role", every value a string), a request body
    ([Dict[str, str]]), the session, or a response payload. *)
Abbreviation dict := (gmap string string).

(** Python exceptions the handlers can let escape: a missing key in
    [d[k]], and the two families the hashing library raises. *)
Inductive exn : Type :=
  | KeyError (k : string)
  | TypeError
  | ValueError.

Inductive result (A : Type) : Type :=
  | Ok (a : A)
  | Raise (e : exn).
Arguments Ok {A} a.
Arguments Raise {A} e.

(** The content handed to [Response(...)]: one JSON object or a list of them. *)
Inductive content : Type :=
  | JObject (d : dict)
  | JArray (l : list dict).

(** [Response(content, status_code=...)]. The handlers pass [status_code]
    only on their error paths; [None] is the omitted argument, which leaves
    the route's success status to the framework. *)
Record Response : Type := mkResponse {
  body : content;
  status_code : option nat
}.

Definition HTTP_401_UNAUTHORIZED : nat := 401.

(** The route decorators of the module: [@post] on [login] and [logout],
    [@get] on [me] and [list_users]. A [Response] built without
    [status_code] goes out with the default status of the decorator of its
    handler, which the framework fixes at 200 for [@get] and 201 for
    [@post]; a [status_code] given to [Response] is sent as it is. *)
Inductive http_method : Type := GET | POST.

Definition HTTP_200_OK : nat := 200.
Definition HTTP_201_CREATED : nat := 201.

Definition default_status_code (m : http_method) : nat :=
  match m with
  | GET => HTTP_200_OK
  | POST => HTTP_201_CREATED
  end.

Definition sent_status (m : http_method) (resp : Response) : nat :=
  default (default_status_code m) (status_code resp).

(** The state a handler runs in: the module global [USERS] and
    [request.session]. *)
Record World : Type := mkWorld {
  USERS : list dict;
  session : dict
}.

#[global] Instance exn_eq_dec : EqDecision exn.
Proof. solve_decision. Defined.
#[global] Instance result_eq_dec {A} `{EqDecision A} : EqDecision (result A).
Proof. solve_decision. Defined.
#[global] Instance content_eq_dec : EqDecision content.
Proof. solve_decision. Defined.
#[global] Instance Response_eq_dec : EqDecision Response.
Proof. solve_decision. Defined.
#[global] Instance World_eq_dec : EqDecision World.
Proof. solve_decision. Defined.

(** ** The handler monad: state passing with exceptions *)

Definition M (A : Type) : Type := World → result A * World.

#[global] Instance M_ret : MRet M := λ A a w, (Ok a, w).
#[global] Instance M_bind : MBind M := λ A B k m w,
  match m w with
  | (Ok a, w') => k a w'
  | (Raise e, w') => (Raise e, w')
  end.

Definition lift {A} (r : result A) : M A := λ w, (r, w).

(** Reading the global [USERS]. *)
Definition get_USERS : M (list dict) := λ w, (Ok (USERS w), w).

(** [request.session.get(k)], [request.session[k] = v],
    [request.session.clear()]. *)
Definition session_get (k : string) : M (option string) :=
  λ w, (Ok (session w !! k), w).
Definition session_setitem (k v : string) : M unit :=
  λ w, (Ok tt, mkWorld (USERS w) (<[k := v]> (session w))).
Definition session_clear : M unit :=
  λ w, (Ok tt, mkWorld (USERS w) ∅).

(** [d[k]]: the value, or [KeyError]. *)
Definition getitem (d : dict) (k : string) : result string :=
  match d !! k with
  | Some v => Ok v
  | None => Raise (KeyError k)
  end.

(** [x == y] where [y] comes from [dict.get] and may be [None]; a [str] is
    never equal to [None]. *)
Definition py_eq_opt (x : string) (y : option string) : bool :=
  match y with
  | Some s => bool_decide (x = s)
  | None => false
  end.

(** The same exception discipline without state, for the loops and
    comprehensions, which only read their arguments. *)
#[global] Instance result_ret : MRet result := λ A a, Ok a.
#[global] Instance result_bind : MBind result := λ A B k r,
  match r with
  | Ok a => k a
  | Raise e => Raise e
  end.

(** A list comprehension [[u for u in us if p(u)]] whose condition may
    raise: elements are tested in order and the first exception escapes. *)
Fixpoint comprehension_if (p : dict → result bool) (us : list dict)
  : result (list dict) :=
  match us with
  | [] => Ok []
  | u :: rest =>
      b ← p u;
      tl ← comprehension_if p rest;
      mret (if b : bool then u :: tl else tl)
  end.

(** [{k: v for k, v in u.items() if k != "password"}]. *)
Definition without_password (u : dict) : dict :=
  filter (λ kv, kv.1 ≠ "password") u.

(** ** The program *)

Definition invalid_credentials : Response :=
  mkResponse (JObject {["error" := "Credenciales inválidas"]})
             (Some HTTP_401_UNAUTHORIZED).
Definition not_authenticated : Response :=
  mkResponse (JObject {["error" := "No autenticado"]})
             (Some HTTP_401_UNAUTHORIZED).
Definition user_not_found : Response :=
  mkResponse (JObject {["error" := "Usuario no encontrado"]})
             (Some HTTP_401_UNAUTHORIZED).

Definition login_success (role : string) : Response :=
  mkResponse (JObject {["message" := "Login exitoso"; "role" := role]}) None.
Definition logout_success : Response :=
  mkResponse (JObject {["message" := "Logout exitoso"]}) None.

(** The loop of [find_user_by_username]: the first record whose
    ["username"] equals the argument. *)
Fixpoint first_with_username (username : option string) (us : list dict)
  : result (option dict) :=
  match us with
  | [] => Ok None
  | u :: rest =>
      n ← getitem u "username";
      if py_eq_opt n username then mret (Some u)
      else first_with_username username rest
  end.

Definition find_user_by_username (username : option string) : M (option dict) :=
  us ← get_USERS;
  lift (first_with_username username us).

(** [next((u for u in USERS if u["id"] == user_id), None)]. *)
Fixpoint next_with_id (user_id : string) (us : list dict)
  : result (option dict) :=
  match us with
  | [] => Ok None
  | u :: rest =>
      i ← getitem u "id";
      if bool_decide (i = user_id) then mret (Some u)
      else next_with_id user_id rest
  end.

Definition filter_users_for_role (auth_user : dict) : M (list dict) :=
  role ← lift (getitem auth_user "role");
  us ← get_USERS;
  if bool_decide (role = "admin") then
    mret us
  else if bool_decide (role = "supervisor") then
    lift (comprehension_if
            (λ u, r ← getitem u "role"; mret (negb (bool_decide (r = "admin"))))
            us)
  else
    lift (comprehension_if
            (λ u, i ← getitem u "id";
                  j ← getitem auth_user "id";
                  mret (bool_decide (i = j)))
            us).

Section Handlers.

(** [bcrypt.verify(secret, hash)] of the hashing library: the secret is
    what [data.get("password")] gave, possibly [None]; the call answers
    with a boolean or raises. *)
Variable bcrypt_verify : option string → string → result bool.

Definition login (data : dict) : M Response :=
  let username := data !! "username" in
  let password := data !! "password" in
  user ← find_user_by_username username;
  match user with
  | None => mret invalid_credentials
  | Some u =>
      if bool_decide (u = ∅) then mret invalid_credentials
      else
        h ← lift (getitem u "password");
        ok ← lift (bcrypt_verify password h);
        if negb ok then mret invalid_credentials
        else
          i ← lift (getitem u "id");
          session_setitem "user_id" i;;
          r ← lift (getitem u "role");
          mret (login_success r)
  end.

End Handlers.

Definition logout : M Response :=
  session_clear;;
  mret logout_success.

(** In [me] and [list_users], [not user_id] holds for [None] and for the
    empty string, and [not user] for [None] and for the empty dict. *)
Definition me : M Response :=
  user_id ← session_get "user_id";
  match user_id with
  | None | Some "" => mret not_authenticated
  | Some uid =>
      us ← get_USERS;
      user ← lift (next_with_id uid us);
      match user with
      | None => mret user_not_found
      | Some u =>
          if bool_decide (u = ∅) then mret user_not_found
          else mret (mkResponse (JObject (without_password u)) None)
      end
  end.

Definition list_users : M Response :=
  user_id ← session_get "user_id";
  match user_id with
  | None | Some "" => mret not_authenticated
  | Some uid =>
      us ← get_USERS;
      auth_user ← lift (next_with_id uid us);
      match auth_user with
      | None => mret user_not_found
      | Some a =>
          if bool_decide (a = ∅) then mret user_not_found
          else
            filtered ← filter_users_for_role a;
            mret (mkResponse (JArray (without_password <$> filtered)) None)
      end
  end.

(** ** A concrete instance for examples *)

(** A stand-in for the hashing library, used only to run the handlers on
    examples: the stored hash is the password behind a marker, and a secret
    that is not a string is refused with [TypeError], as the library does. *)
Definition marker_verify (secret : option string) (hash : string) : result bool :=
  match secret with
  | None => Raise TypeError
  | Some p => Ok (bool_decide (hash = "$" +:+ p))
  end.

(** The three records of [create_users.py], with fixed identifiers in place
    of the random ones. *)
Definition mk_user (i n p nm e r : string) : dict :=
  {[ "id" := i; "username" := n; "password" := p;
     "nombre" := nm; "email" := e; "role" := r ]}.

Definition raw_users : list dict :=
  [ mk_user "id-1" "admin" "$adminpass" "Administrador" "admin@ejemplo.com" "admin";
    mk_user "id-2" "super1" "$superpass" "Supervisor Uno" "super1@ejemplo.com" "supervisor";
    mk_user "id-3" "usuario1" "$userpass" "Usuario Uno" "user1@ejemplo.com" "usuario" ].

Definition fresh : World := mkWorld raw_users ∅.
Definition logged_in (uid : string) : World := mkWorld raw_users {["user_id" := uid]}.

(** ** Well-formed stores *)

(** A record carries the four keys the handlers index with [u[...]]. *)
Definition record_ok (u : dict) : Prop :=
  is_Some (u !! "id") ∧ is_Some (u !! "username") ∧
  is_Some (u !! "password") ∧ is_Some (u !! "role").

Definition store_ok (us : list dict) : Prop := Forall record_ok us.

(** The data-model invariant on user names: no two records share one. *)
Definition unique_usernames (us : list dict) : Prop :=
  NoDup ((λ u : dict, u !! "username") <$> us).

#[global] Instance record_ok_dec u : Decision (record_ok u).
Proof. unfold record_ok. apply _. Defined.
#[global] Instance store_ok_dec us : Decision (store_ok us).
Proof. unfold store_ok. apply _. Defined.
#[global] Instance unique_usernames_dec us : Decision (unique_usernames us).
Proof. unfold unique_usernames. apply _. Defined.

(** The visibility rule in the words of the specification, as a plain
    filter over the store; [filter_users_for_role] is compared with it. *)
Definition visible_users (role pid : string) (us : list dict) : list dict :=
  if bool_decide (role = "admin") then us
  else if bool_decide (role = "supervisor") then
    filter (λ u : dict, u !! "role" ≠ Some "admin") us
  else
    filter (λ u : dict, u !! "id" = Some pid) us.

(** What a record of a response shares with a record [u] of the store:
    every field but the hash. *)
Definition shows_all_but_password (us : list dict) (d : dict) : Prop :=
  ∃ u, u ∈ us ∧ ∀ k, k ≠ "password" → d !! k = u !! k.

(** A computation that leaves the global [USERS] as it found it. *)
Definition keeps_store {A} (m : M A) : Prop :=
  ∀ w, USERS (snd (m w)) = USERS w.

(** The data-model invariant on identifiers: no two records share one. *)
Definition unique_ids (us : list dict) : Prop :=
  NoDup ((λ u : dict, u !! "id") <$> us).

#[global] Instance unique_ids_dec us : Decision (unique_ids us).
Proof. unfold unique_ids. apply _. Defined.

(** The shape of a session the handlers produce: empty, or the single key
    [user_id] holding the id of a record of the store. *)
Definition session_of_store (w : World) : Prop :=
  session w = ∅ ∨
  ∃ u i, u ∈ USERS w ∧ u !! "id" = Some i ∧ session w = {["user_id" := i]}.

(** ** The seeding script (create_users.py) *)

(** The literal [raw_users] as the script first builds it, passwords in
    clear; the three identifiers are what [str(uuid.uuid4())] returned. *)
Definition raw_users_initial (id1 id2 id3 : string) : list dict :=
  [ mk_user id1 "admin" "adminpass" "Administrador" "admin@ejemplo.com" "admin";
    mk_user id2 "super1" "superpass" "Supervisor Uno" "super1@ejemplo.com" "supervisor";
    mk_user id3 "usuario1" "userpass" "Usuario Uno" "user1@ejemplo.com" "usuario" ].

Section Seeding.

(** [bcrypt.hash(secret)] of the hashing library. Each call draws a fresh
    salt, so the result depends on which call it is: the first argument
    counts the calls. *)
Variable bcrypt_hash : nat → string → result string.

(** The loop [for u in raw_users: u["password"] = bcrypt.hash(u["password"])],
    [n] being the number of calls made so far. *)
Fixpoint hash_passwords (n : nat) (us : list dict) : result (list dict) :=
  match us with
  | [] => Ok []
  | u :: rest =>
      p ← getitem u "password";
      h ← bcrypt_hash n p;
      tl ← hash_passwords (S n) rest;
      mret (<["password" := h]> u :: tl)
  end.

(** The script: the list it hands to [json.dump], which [main.py] reads
    back as [USERS]. *)
Definition create_users (id1 id2 id3 : string) : result (list dict) :=
  hash_passwords 0 (raw_users_initial id1 id2 id3).

End Seeding.

(** The hashing stand-in that goes with [marker_verify]. *)
Definition marker_hash (n : nat) (secret : string) : result string :=
  Ok ("$" +:+ secret).

(** ** Start-up configuration (main.py, module level) *)

(** [os.getenv("SESSION_SECRET")] with the fallback of the module:
    [not SESSION_SECRET_HEX] holds for an unset and for an empty variable;
    then the token drawn by [secrets.token_hex(32)] is used and the warning
    is printed. The pair is the hexadecimal secret and whether the warning
    was printed. *)
Definition SESSION_SECRET_HEX (environ : dict) (token_hex : string)
  : string * bool :=
  match environ !! "SESSION_SECRET" with
  | None | Some "" => (token_hex, true)
  | Some s => (s, false)
  end.

(** [os.getenv("ENV", "development")]. *)
Definition ENV (environ : dict) : string :=
  default "development" (environ !! "ENV").

(** The flags the module passes on: [secure] and [httponly] of
    [CookieBackendConfig], [debug] of [Litestar]. *)
Definition session_config_secure (environ : dict) : bool :=
  bool_decide (ENV environ = "production").
Definition session_config_httponly (environ : dict) : bool := true.
Definition app_debug (environ : dict) : bool :=
  negb (bool_decide (ENV environ = "production")).

(** ** Lemmas on the helpers *)

Ltac unfold_M :=
  unfold mbind, mret, M_bind, M_ret, result_bind, result_ret, lift,
    get_USERS, session_get, session_setitem, session_clear in *.

Lemma getitem_Some (d : dict) k v : d !! k = Some v → getitem d k = Ok v.
Proof. unfold getitem. by intros ->. Qed.

Lemma getitem_Ok (d : dict) k v : getitem d k = Ok v → d !! k = Some v.
Proof. unfold getitem. by destruct (d !! k); intros [=->]. Qed.

Lemma record_ok_nonempty (u : dict) k : is_Some (u !! k) → u ≠ ∅.
Proof. intros [v Hv] ->. by rewrite lookup_empty in Hv. Qed.

Lemma next_with_id_Some uid us u :
  next_with_id uid us = Ok (Some u) → u ∈ us ∧ u !! "id" = Some uid.
Proof.
  induction us as [|x us IH]; simpl; [done|].
  unfold_M. destruct (getitem x "id") as [i|] eqn:Hi; [|done].
  case_bool_decide as Heq.
  - intros [= ->]. subst i. split; [left | by apply getitem_Ok].
  - intros H. destruct (IH H). split; [by right | done].
Qed.

Lemma next_with_id_None uid us :
  Forall (λ u : dict, is_Some (u !! "id")) us →
  (∀ u, u ∈ us → u !! "id" ≠ Some uid) →
  next_with_id uid us = Ok None.
Proof.
  induction 1 as [|x us [i Hi] _ IH]; intros Hno; simpl; [done|].
  unfold_M. rewrite (getitem_Some _ _ _ Hi).
  case_bool_decide as Heq.
  - subst i. destruct (Hno x); [left | done].
  - apply IH. intros u Hu. apply Hno. by right.
Qed.

Lemma next_with_id_resolves uid us p :
  Forall (λ u : dict, is_Some (u !! "id")) us →
  p ∈ us → p !! "id" = Some uid →
  ∃ p', next_with_id uid us = Ok (Some p').
Proof.
  induction 1 as [|x us [i Hi] _ IH]; intros Hin Hp; [by inversion Hin|].
  simpl. unfold_M. rewrite (getitem_Some _ _ _ Hi).
  case_bool_decide as Heq; [by eexists|].
  apply IH; [|done]. inversion Hin; subst; [congruence | done].
Qed.

Lemma first_with_username_Some n us u :
  first_with_username n us = Ok (Some u) →
  u ∈ us ∧ ∃ s, n = Some s ∧ u !! "username" = Some s.
Proof.
  induction us as [|x us IH]; simpl; [done|].
  unfold_M. destruct (getitem x "username") as [m|] eqn:Hm; [|done].
  destruct (py_eq_opt m n) eqn:Heq.
  - intros [= ->]. split; [left|].
    destruct n as [s|]; simpl in Heq; [|done].
    apply bool_decide_eq_true in Heq. subst m.
    exists s. split; [done | by apply getitem_Ok].
  - intros H. destruct (IH H) as [? ?]. split; [by right | done].
Qed.

Lemma first_with_username_None n us :
  Forall (λ u : dict, is_Some (u !! "username")) us →
  (∀ u, u ∈ us → u !! "username" ≠ n) →
  first_with_username n us = Ok None.
Proof.
  induction 1 as [|x us [m Hm] _ IH]; intros Hno; simpl; [done|].
  unfold_M. rewrite (getitem_Some _ _ _ Hm).
  destruct (py_eq_opt m n) eqn:Heq.
  - destruct n as [s|]; simpl in Heq; [|done].
    apply bool_decide_eq_true in Heq. subst m.
    destruct (Hno x); [left | done].
  - apply IH. intros u Hu. apply Hno. by right.
Qed.

(** A body without the key "username" never resolves: the comparison with
    [None] is false for every stored name. *)
Lemma first_with_username_absent us :
  Forall (λ u : dict, is_Some (u !! "username")) us →
  first_with_username None us = Ok None.
Proof.
  intros H. apply first_with_username_None; [done|].
  intros u Hu. rewrite Forall_forall in H. by destruct (H u Hu) as [m ->].
Qed.

Lemma first_with_username_total n us :
  Forall (λ u : dict, is_Some (u !! "username")) us →
  ∃ o, first_with_username n us = Ok o.
Proof.
  induction 1 as [|x us [m Hm] _ IH]; simpl; [by eexists|].
  unfold_M. rewrite (getitem_Some _ _ _ Hm).
  destruct (py_eq_opt m n); [by eexists | done].
Qed.

Lemma first_with_username_unique n us u :
  Forall (λ u : dict, is_Some (u !! "username")) us →
  unique_usernames us →
  u ∈ us → u !! "username" = Some n →
  first_with_username (Some n) us = Ok (Some u).
Proof.
  unfold unique_usernames.
  induction 1 as [|x us [m Hm] _ IH]; intros Hnd Hin Hu; [by inversion Hin|].
  simpl in *. apply NoDup_cons in Hnd as [Hx Hnd].
  unfold_M. rewrite (getitem_Some _ _ _ Hm). simpl.
  case_bool_decide as Heq.
  - subst m. inversion Hin as [|? ? ? Hin']; subst; [done|].
    destruct Hx. rewrite Hm, <- Hu.
    by apply (list_elem_of_fmap_2 (λ u : dict, u !! "username")).
  - inversion Hin; subst; [congruence|]. by apply IH.
Qed.

Lemma comprehension_if_sublist p us l :
  comprehension_if p us = Ok l → l `sublist_of` us.
Proof.
  revert l. induction us as [|x us IH]; simpl; intros l.
  - intros [= <-]. constructor.
  - unfold_M. destruct (p x) as [b|]; [|done].
    destruct (comprehension_if p us) as [tl|]; [|done].
    intros [= <-]. destruct b; constructor; by apply IH.
Qed.

Lemma comprehension_if_filter (P : dict → Prop) `{!∀ u, Decision (P u)} p us :
  (∀ u, u ∈ us → p u = Ok (bool_decide (P u))) →
  comprehension_if p us = Ok (filter P us).
Proof.
  induction us as [|x us IH]; intros Hp; simpl; [done|].
  unfold_M. rewrite (Hp x) by left.
  rewrite IH by (intros u Hu; apply Hp; by right).
  rewrite filter_cons. by destruct (decide (P x)); simplify_eq/=; case_bool_decide.
Qed.

Lemma without_password_hidden (u : dict) : without_password u !! "password" = None.
Proof.
  unfold without_password. apply map_lookup_filter_None. right.
  intros x _ Hk. by apply Hk.
Qed.

Lemma without_password_other (u : dict) k :
  k ≠ "password" → without_password u !! k = u !! k.
Proof.
  intros Hk. unfold without_password. rewrite map_lookup_filter.
  destruct (u !! k) as [v|]; simpl; [|done]. by rewrite option_guard_True.
Qed.

Lemma store_ok_ids us : store_ok us → Forall (λ u : dict, is_Some (u !! "id")) us.
Proof. intros H. eapply Forall_impl; [exact H|]. by intros u (? & _). Qed.

Lemma store_ok_usernames us :
  store_ok us → Forall (λ u : dict, is_Some (u !! "username")) us.
Proof. intros H. eapply Forall_impl; [exact H|]. by intros u (_ & ? & _). Qed.

Lemma store_ok_elem us u : store_ok us → u ∈ us → record_ok u.
Proof. intros H. by apply Forall_forall. Qed.

(** [filter_users_for_role] only reads: it leaves the world as it found it,
    and what it returns is a subsequence of the store. *)
Lemma filter_users_for_role_sublist p w r w' :
  filter_users_for_role p w = (r, w') →
  w' = w ∧ ∀ l, r = Ok l → l `sublist_of` USERS w.
Proof.
  unfold filter_users_for_role. unfold_M.
  destruct (getitem p "role") as [role|]; [|by intros [= <- <-]].
  repeat case_bool_decide; intros [= <- <-]; (split; [done|]); intros l Hl.
  - by injection Hl as <-.
  - by eapply comprehension_if_sublist.
  - by eapply comprehension_if_sublist.
Qed.

Lemma filter_users_for_role_visible w p role pid :
  store_ok (USERS w) →
  p !! "role" = Some role → p !! "id" = Some pid →
  filter_users_for_role p w = (Ok (visible_users role pid (USERS w)), w).
Proof.
  intros Hok Hrole Hid. unfold filter_users_for_role, visible_users. unfold_M.
  rewrite (getitem_Some _ _ _ Hrole).
  repeat case_bool_decide; [done| |].
  - erewrite (comprehension_if_filter (λ u : dict, u !! "role" ≠ Some "admin")); [done|].
    intros u Hu. destruct (store_ok_elem _ _ Hok Hu) as (_ & _ & _ & [r Hr]).
    rewrite (getitem_Some _ _ _ Hr), Hr. f_equal.
    repeat case_bool_decide; naive_solver.
  - erewrite (comprehension_if_filter (λ u : dict, u !! "id" = Some pid)); [done|].
    intros u Hu. destruct (store_ok_elem _ _ Hok Hu) as ([i Hi] & _).
    rewrite (getitem_Some _ _ _ Hi), (getitem_Some _ _ _ Hid), Hi. f_equal.
    repeat case_bool_decide; naive_solver.
Qed.

(** ** Lemmas on the handlers *)

Section HandlerLemmas.

Variable bcrypt_verify : option string → string → result bool.

Lemma login_unresolved data w :
  first_with_username (data !! "username") (USERS w) = Ok None →
  login bcrypt_verify data w = (Ok invalid_credentials, w).
Proof. intros H. unfold login, find_user_by_username. unfold_M. by rewrite H. Qed.

Lemma login_resolved data w u h i r :
  first_with_username (data !! "username") (USERS w) = Ok (Some u) →
  u !! "password" = Some h → u !! "id" = Some i → u !! "role" = Some r →
  login bcrypt_verify data w =
    match bcrypt_verify (data !! "password") h with
    | Raise e => (Raise e, w)
    | Ok false => (Ok invalid_credentials, w)
    | Ok true =>
        (Ok (login_success r),
         mkWorld (USERS w) (<["user_id" := i]> (session w)))
    end.
Proof.
  intros Hu Hh Hi Hr. unfold login, find_user_by_username. unfold_M.
  rewrite Hu. rewrite bool_decide_eq_false_2 by by eapply record_ok_nonempty.
  rewrite (getitem_Some _ _ _ Hh), (getitem_Some _ _ _ Hi), (getitem_Some _ _ _ Hr).
  by destruct (bcrypt_verify _ _) as [[]|].
Qed.

(** Whatever [login] answers without raising is one of its two responses,
    and the session is written only together with the success response. *)
Lemma login_Ok_inv data w resp w' :
  login bcrypt_verify data w = (Ok resp, w') →
  (resp = invalid_credentials ∧ w' = w) ∨
  (∃ u h i r,
      first_with_username (data !! "username") (USERS w) = Ok (Some u) ∧
      u !! "password" = Some h ∧ u !! "id" = Some i ∧ u !! "role" = Some r ∧
      bcrypt_verify (data !! "password") h = Ok true ∧
      resp = login_success r ∧
      w' = mkWorld (USERS w) (<["user_id" := i]> (session w))).
Proof.
  unfold login, find_user_by_username. unfold_M.
  destruct (first_with_username _ _) as [[u|]|] eqn:Hu; [| |done].
  2:{ intros [= <- <-]. by left. }
  case_bool_decide; [intros [= <- <-]; by left|].
  destruct (getitem u "password") as [h|] eqn:Hh; [|done].
  destruct (bcrypt_verify _ h) as [[]|] eqn:Hv; simpl; [| |done].
  2:{ intros [= <- <-]. by left. }
  destruct (getitem u "id") as [i|] eqn:Hi; [|done].
  destruct (getitem u "role") as [r|] eqn:Hr; [|done].
  intros [= <- <-]. right. exists u, h, i, r.
  repeat split; auto using getitem_Ok.
Qed.

End HandlerLemmas.

Lemma me_inv w resp w' :
  me w = (Ok resp, w') →
  w' = w ∧
  (resp = not_authenticated ∨ resp = user_not_found ∨
   ∃ uid u, session w !! "user_id" = Some uid ∧
            next_with_id uid (USERS w) = Ok (Some u) ∧
            resp = mkResponse (JObject (without_password u)) None).
Proof.
  unfold me. unfold_M.
  destruct (session w !! "user_id") as [[|a uid]|] eqn:Hs;
    try (intros [= <- <-]; by auto).
  destruct (next_with_id _ _) as [[u|]|] eqn:Hu; [| |done];
    try (intros [= <- <-]; by auto).
  case_bool_decide; intros [= <- <-]; [by auto|].
  split; [done|]. right. right. by exists (String a uid), u.
Qed.

Lemma list_users_inv w resp w' :
  list_users w = (Ok resp, w') →
  w' = w ∧
  (resp = not_authenticated ∨ resp = user_not_found ∨
   ∃ uid a filtered,
     session w !! "user_id" = Some uid ∧
     next_with_id uid (USERS w) = Ok (Some a) ∧
     filter_users_for_role a w = (Ok filtered, w) ∧
     resp = mkResponse (JArray (without_password <$> filtered)) None).
Proof.
  unfold list_users. unfold_M.
  destruct (session w !! "user_id") as [[|c uid]|] eqn:Hs;
    try (intros [= <- <-]; by auto).
  destruct (next_with_id _ _) as [[a|]|] eqn:Ha; [| |done];
    try (intros [= <- <-]; by auto).
  case_bool_decide; [intros [= <- <-]; by auto|].
  destruct (filter_users_for_role a w) as [[l|] w1] eqn:Hf; [|done].
  destruct (filter_users_for_role_sublist _ _ _ _ Hf) as [-> _].
  intros [= <- <-]. split; [done|]. right. right.
  by exists (String c uid), a, l.
Qed.

(** A session whose [user_id] is missing or empty is not authenticated. *)
Lemma me_no_user_id w :
  session w !! "user_id" = None ∨ session w !! "user_id" = Some "" →
  me w = (Ok not_authenticated, w).
Proof. unfold me. unfold_M. by intros [-> | ->]. Qed.

Lemma list_users_no_user_id w :
  session w !! "user_id" = None ∨ session w !! "user_id" = Some "" →
  list_users w = (Ok not_authenticated, w).
Proof. unfold list_users. unfold_M. by intros [-> | ->]. Qed.

Lemma me_dangling w uid :
  session w !! "user_id" = Some uid → uid ≠ "" →
  next_with_id uid (USERS w) = Ok None →
  me w = (Ok user_not_found, w).
Proof.
  unfold me. unfold_M. intros -> Hne Hnone.
  destruct uid; [done|]. by rewrite Hnone.
Qed.

Lemma list_users_dangling w uid :
  session w !! "user_id" = Some uid → uid ≠ "" →
  next_with_id uid (USERS w) = Ok None →
  list_users w = (Ok user_not_found, w).
Proof.
  unfold list_users. unfold_M. intros -> Hne Hnone.
  destruct uid; [done|]. by rewrite Hnone.
Qed.

(** ** Properties of the handlers *)

Ltac by_evaluation := apply (bool_decide_unpack _); vm_compute; exact I.

(** C1. Whatever the session and whatever the caller's role, no dictionary
    in a response of [me] or [list_users] has the key "password" (the stored
    hash), and in a success response every dictionary is a record of the
    store with all its other fields. *)
Theorem C1_me_and_users_hide_password w resp w' :
  me w = (Ok resp, w') ∨ list_users w = (Ok resp, w') →
  match body resp with
  | JObject d =>
      d !! "password" = None ∧
      (status_code resp = None → shows_all_but_password (USERS w) d)
  | JArray l =>
      Forall (λ d : dict, d !! "password" = None) l ∧
      (status_code resp = None →
       Forall (shows_all_but_password (USERS w)) l)
  end.
Proof.
  intros [H|H].
  - apply me_inv in H as [_ [->|[->|(uid & u & _ & Hu & ->)]]]; simpl;
      [by split..|].
    split; [apply without_password_hidden|]. intros _.
    apply next_with_id_Some in Hu as [Hin _].
    exists u. split; [done|]. apply without_password_other.
  - apply list_users_inv in H
      as [_ [->|[->|(uid & a & l & _ & _ & Hf & ->)]]]; simpl; [by split..|].
    apply filter_users_for_role_sublist in Hf as [_ Hsub].
    specialize (Hsub l eq_refl).
    split; [|intros _]; apply Forall_fmap, Forall_forall; intros u Hu; simpl.
    + apply without_password_hidden.
    + exists u. split; [by eapply elem_of_sublist|].
      apply without_password_other.
Qed.

Lemma C1_witness :
  ∃ resp,
    fst (list_users (logged_in "id-2")) = Ok resp ∧
    match body resp with
    | JObject d => False
    | JArray l =>
        length l = 2 ∧
        Forall (λ d : dict, d !! "password" = None) l ∧
        Forall (shows_all_but_password raw_users) l
    end.
Proof.
  eexists. split; [vm_compute; reflexivity|].
  pose proof (C1_me_and_users_hide_password (logged_in "id-2") _ _
                (or_intror eq_refl)) as H.
  simpl in H. destruct H as [H1 H2].
  split; [reflexivity|]. split; [exact H1 | exact (H2 eq_refl)].
Defined.

(** C2. For a principal [p] that is a record of a well-formed store,
    [filter_users_for_role] returns (it does not raise, and it leaves the
    world alone): the whole store when [p]'s role is "admin", the records
    whose role is not "admin" when it is "supervisor", and for any other
    role the records whose id is [p]'s; the tests are made in that order. *)
Theorem C2_visibility_policy w p :
  store_ok (USERS w) → p ∈ USERS w →
  ∃ role pid visible,
    p !! "role" = Some role ∧ p !! "id" = Some pid ∧
    filter_users_for_role p w = (Ok visible, w) ∧
    visible = visible_users role pid (USERS w) ∧
    (role = "admin" → visible = USERS w) ∧
    (role = "supervisor" →
     visible = filter (λ u : dict, u !! "role" ≠ Some "admin") (USERS w)) ∧
    (role ≠ "admin" → role ≠ "supervisor" →
     visible = filter (λ u : dict, u !! "id" = Some pid) (USERS w)).
Proof.
  intros Hok Hp.
  destruct (store_ok_elem _ _ Hok Hp) as ([pid Hid] & _ & _ & [role Hrole]).
  exists role, pid, (visible_users role pid (USERS w)).
  split; [done|]. split; [done|].
  split; [by apply filter_users_for_role_visible|]. split; [done|].
  unfold visible_users. repeat split.
  - by intros ->.
  - by intros ->.
  - intros. by rewrite !bool_decide_eq_false_2.
Qed.

Lemma C2_witness :
  ∃ visible,
    filter_users_for_role
      (mk_user "id-2" "super1" "$superpass" "Supervisor Uno"
               "super1@ejemplo.com" "supervisor") fresh = (Ok visible, fresh) ∧
    length visible = 2.
Proof.
  destruct (C2_visibility_policy fresh
              (mk_user "id-2" "super1" "$superpass" "Supervisor Uno"
                       "super1@ejemplo.com" "supervisor"))
    as (role & pid & visible & Hrole & _ & Hrun & _ & _ & Hsup & _).
  - by_evaluation.
  - by_evaluation.
  - exists visible. split; [exact Hrun|].
    rewrite Hsup; [reflexivity|]. vm_compute in Hrole. congruence.
Defined.

(** C3 as stated does not hold: without a session [me] and [list_users]
    answer "No autenticado", and with a session whose id is in no record
    they answer "Usuario no encontrado"; the two payloads differ. *)
Lemma C3_counterexample :
  session fresh !! "user_id" = None ∧
  session (logged_in "ghost") !! "user_id" = Some "ghost" ∧
  next_with_id "ghost" (USERS (logged_in "ghost")) = Ok None ∧
  fst (me fresh) ≠ fst (me (logged_in "ghost")) ∧
  fst (list_users fresh) ≠ fst (list_users (logged_in "ghost")).
Proof. repeat split; by_evaluation. Qed.

(** C3, amended. Both failures of principal resolution have status 401 and
    a payload with the single key "error", and [me] and [list_users] answer
    alike; the message is "No autenticado" when the session has no
    [user_id], and "Usuario no encontrado" when its (non-empty) [user_id]
    is the id of no record of the store. *)
Theorem C3_unauthenticated_responses w :
  (session w !! "user_id" = None →
   me w = (Ok not_authenticated, w) ∧
   list_users w = (Ok not_authenticated, w)) ∧
  (∀ uid,
     session w !! "user_id" = Some uid → uid ≠ "" →
     Forall (λ u : dict, is_Some (u !! "id")) (USERS w) →
     (∀ u, u ∈ USERS w → u !! "id" ≠ Some uid) →
     me w = (Ok user_not_found, w) ∧
     list_users w = (Ok user_not_found, w)) ∧
  not_authenticated =
    mkResponse (JObject {["error" := "No autenticado"]}) (Some 401) ∧
  user_not_found =
    mkResponse (JObject {["error" := "Usuario no encontrado"]}) (Some 401).
Proof.
  split; [|split; [|done]].
  - intros Hs. split;
      [apply me_no_user_id | apply list_users_no_user_id]; by left.
  - intros uid Hs Hne Hids Hno.
    pose proof (next_with_id_None uid _ Hids Hno) as Hnone.
    split; [by eapply me_dangling | by eapply list_users_dangling].
Qed.

Lemma C3_witness :
  (me fresh = (Ok not_authenticated, fresh) ∧
   list_users fresh = (Ok not_authenticated, fresh)) ∧
  (me (logged_in "ghost") = (Ok user_not_found, logged_in "ghost") ∧
   list_users (logged_in "ghost") = (Ok user_not_found, logged_in "ghost")).
Proof.
  split.
  - apply (proj1 (C3_unauthenticated_responses fresh)). reflexivity.
  - apply (proj1 (proj2 (C3_unauthenticated_responses (logged_in "ghost")))
             "ghost").
    + reflexivity.
    + by_evaluation.
    + by_evaluation.
    + apply Forall_forall. by_evaluation.
Defined.



(** A raise of [login] on a well-formed store comes from the verification,
    which runs before the session is written: the world is unchanged. *)
Lemma login_Raise_world
    (verify : option string → string → result bool) data w e w' :
  store_ok (USERS w) →
  login verify data w = (Raise e, w') → w' = w.
Proof.
  intros Hok. unfold login, find_user_by_username. unfold_M.
  destruct (first_with_username_total (data !! "username") _
              (store_ok_usernames _ Hok)) as [[u|] Hu]; rewrite Hu; [|done].
  destruct (first_with_username_Some _ _ _ Hu) as [Hin _].
  destruct (store_ok_elem _ _ Hok Hin) as ([i Hi] & _ & [h Hh] & [r Hr]).
  case_bool_decide; [done|].
  rewrite (getitem_Some _ _ _ Hh), (getitem_Some _ _ _ Hi),
    (getitem_Some _ _ _ Hr).
  destruct (verify _ h) as [[]|e']; simpl; try done.
  by intros [= <- <-].
Qed.

(** C5 (where the code departs from it). On a well-formed store with
    unique user names, a login for a registered user [U] with a password
    that verifies against [U]'s hash returns the response carrying [U]'s
    role, and the session it leaves has [user_id] equal to [U]'s id, as the
    claim says. But the response is built without a status code, so under
    the [@post] decorator of [login] it is sent with status 201, not with
    the 200 that the claim and the docstring of [login] give. *)
Theorem C5_login_success_is_sent_with_201
    (bcrypt_verify : option string → string → result bool)
    w U n h i r p data :
  store_ok (USERS w) → unique_usernames (USERS w) →
  U ∈ USERS w → U !! "username" = Some n → U !! "password" = Some h →
  U !! "id" = Some i → U !! "role" = Some r →
  data !! "username" = Some n → data !! "password" = Some p →
  bcrypt_verify (Some p) h = Ok true →
  ∃ resp w',
    login bcrypt_verify data w = (Ok resp, w') ∧
    body resp = JObject {["message" := "Login exitoso"; "role" := r]} ∧
    session w' !! "user_id" = Some i ∧
    session w' = <["user_id" := i]> (session w) ∧
    status_code resp = None ∧
    sent_status POST resp = 201 ∧
    sent_status POST resp ≠ HTTP_200_OK.
Proof.
  intros Hok Huniq HU Hn Hh Hi Hr Hdn Hdp Hv.
  pose proof (store_ok_usernames _ Hok) as Hnames.
  eexists _, _. split.
  - rewrite (login_resolved _ _ _ U h i r); try done.
    + by rewrite Hdp, Hv.
    + rewrite Hdn. by apply first_with_username_unique.
  - simpl. rewrite lookup_insert_eq. by repeat split.
Qed.

Lemma C5_witness :
  ∃ resp w',
    login marker_verify {["username" := "usuario1"; "password" := "userpass"]}
          fresh = (Ok resp, w') ∧
    body resp = JObject {["message" := "Login exitoso"; "role" := "usuario"]} ∧
    session w' !! "user_id" = Some "id-3" ∧
    session w' = <["user_id" := "id-3"]> (session fresh) ∧
    status_code resp = None ∧
    sent_status POST resp = 201 ∧
    sent_status POST resp ≠ HTTP_200_OK.
Proof.
  apply (C5_login_success_is_sent_with_201 marker_verify fresh
           (mk_user "id-3" "usuario1" "$userpass" "Usuario Uno"
                    "user1@ejemplo.com" "usuario")
           "usuario1" "$userpass" "id-3" "usuario" "userpass");
    try reflexivity; by_evaluation.
Defined.

(** C6 (where the code departs from it). In every session state, the empty
    one included, [logout] returns its one response and leaves the session
    empty, and [me] run on the world [logout] leaves answers 401, as the
    claim says. But the response of [logout] is built without a status
    code, so under its [@post] decorator it is sent with status 201, not
    200. *)
Theorem C6_logout_clears_session_and_is_sent_with_201 w :
  logout w = (Ok logout_success, mkWorld (USERS w) ∅) ∧
  session (snd (logout w)) = ∅ ∧
  fst (me (snd (logout w))) = Ok not_authenticated ∧
  sent_status GET not_authenticated = 401 ∧
  status_code logout_success = None ∧
  sent_status POST logout_success = 201 ∧
  sent_status POST logout_success ≠ HTTP_200_OK.
Proof. repeat split. by intros [=]. Qed.

(** C7. On a well-formed store, for every request and every outcome of
    [login]: a 401 response leaves the world, and so the session, exactly
    as it was before the call; so does a raise; and the session is changed
    only together with the success response, and then it is the old one
    with [user_id] set to the id of a record of the store, no other key
    touched. (For the responses [login] returns, this needs no assumption
    on the store.) *)
Theorem C7_login_session_atomic
    (bcrypt_verify : option string → string → result bool)
    data w outcome w' :
  login bcrypt_verify data w = (outcome, w') →
  (∀ resp, outcome = Ok resp →
     (sent_status POST resp = 401 ∧ w' = w) ∨
     (∃ u i r, u ∈ USERS w ∧ u !! "id" = Some i ∧ u !! "role" = Some r ∧
               resp = login_success r ∧
               session w' = <["user_id" := i]> (session w) ∧
               ∀ k, k ≠ "user_id" → session w' !! k = session w !! k)) ∧
  (store_ok (USERS w) → ∀ e, outcome = Raise e → w' = w) ∧
  (store_ok (USERS w) → session w' ≠ session w →
   ∃ r, outcome = Ok (login_success r)).
Proof.
  intros H.
  assert (∀ resp, outcome = Ok resp →
     (sent_status POST resp = 401 ∧ w' = w) ∨
     (∃ u i r, u ∈ USERS w ∧ u !! "id" = Some i ∧ u !! "role" = Some r ∧
               resp = login_success r ∧
               session w' = <["user_id" := i]> (session w) ∧
               ∀ k, k ≠ "user_id" → session w' !! k = session w !! k))
    as Hreturns.
  { intros resp ->. apply login_Ok_inv in H
      as [[-> ->] | (u & h & i & r & Hu & _ & Hi & Hr & _ & -> & ->)].
    - by left.
    - right. apply first_with_username_Some in Hu as [Hin _].
      exists u, i, r. repeat split; [done..|].
      intros k Hk. simpl. by rewrite lookup_insert_ne. }
  split; [exact Hreturns|]. split.
  - intros Hok e ->. by eapply login_Raise_world.
  - intros Hok Hchanged. destruct outcome as [resp|e].
    + destruct (Hreturns resp eq_refl)
        as [[_ ->] | (u & i & r & _ & _ & _ & -> & _)]; [done|].
      by exists r.
    + destruct Hchanged. by rewrite (login_Raise_world _ _ _ _ _ Hok H).
Qed.

Lemma C7_witness :
  snd (login marker_verify
         {["username" := "usuario1"; "password" := "wrongpass"]}
         (logged_in "id-1")) = logged_in "id-1" ∧
  snd (login marker_verify {["username" := "admin"]} (logged_in "id-1"))
    = logged_in "id-1".
Proof.
  split.
  - assert (login marker_verify
              {["username" := "usuario1"; "password" := "wrongpass"]}
              (logged_in "id-1")
            = (Ok invalid_credentials,
               snd (login marker_verify
                      {["username" := "usuario1"; "password" := "wrongpass"]}
                      (logged_in "id-1")))) as Hrun
      by (vm_compute; reflexivity).
    destruct (proj1 (C7_login_session_atomic marker_verify _ _ _ _ Hrun)
                invalid_credentials eq_refl)
      as [[_ Hw] | (u & i & r & _ & _ & _ & Hresp & _)].
    + exact Hw.
    + discriminate Hresp.
  - assert (login marker_verify {["username" := "admin"]} (logged_in "id-1")
            = (Raise TypeError,
               snd (login marker_verify {["username" := "admin"]}
                      (logged_in "id-1")))) as Hrun
      by (vm_compute; reflexivity).
    refine (proj1 (proj2 (C7_login_session_atomic marker_verify _ _ _ _ Hrun))
              _ TypeError eq_refl).
    by_evaluation.
Defined.

(** C8. For a session that resolves to a record of a well-formed store,
    [list_users] returns the success response whose array is, record by
    record and in the same order, a subsequence of the store with the hash
    removed: nothing is reordered, repeated or added. *)
Theorem C8_users_in_store_order w uid p :
  store_ok (USERS w) →
  session w !! "user_id" = Some uid → uid ≠ "" →
  p ∈ USERS w → p !! "id" = Some uid →
  ∃ visible,
    list_users w =
      (Ok (mkResponse (JArray (without_password <$> visible)) None), w) ∧
    visible `sublist_of` USERS w.
Proof.
  intros Hok Hs Hne Hp Hid.
  destruct (next_with_id_resolves uid _ p (store_ok_ids _ Hok) Hp Hid)
    as [a Ha].
  destruct (next_with_id_Some _ _ _ Ha) as [Hin Haid].
  destruct (store_ok_elem _ _ Hok Hin) as (_ & _ & _ & [role Hrole]).
  pose proof (filter_users_for_role_visible w a role uid Hok Hrole Haid) as Hf.
  exists (visible_users role uid (USERS w)). split.
  - unfold list_users. unfold_M. rewrite Hs.
    destruct uid as [|c uid]; [done|]. rewrite Ha.
    rewrite bool_decide_eq_false_2
      by (eapply record_ok_nonempty; by rewrite Haid).
    by rewrite Hf.
  - by apply (filter_users_for_role_sublist _ _ _ _ Hf).
Qed.

Lemma C8_witness :
  ∃ visible,
    list_users (logged_in "id-2") =
      (Ok (mkResponse (JArray (without_password <$> visible)) None),
       logged_in "id-2") ∧
    visible `sublist_of` raw_users.
Proof.
  apply (C8_users_in_store_order (logged_in "id-2") "id-2"
           (mk_user "id-2" "super1" "$superpass" "Supervisor Uno"
                    "super1@ejemplo.com" "supervisor"));
    try reflexivity; by_evaluation.
Defined.

Lemma keeps_store_ret {A} (a : A) : keeps_store (mret a).
Proof. by intros w. Qed.

Lemma keeps_store_bind {A B} (m : M A) (k : A → M B) :
  keeps_store m → (∀ a, keeps_store (k a)) → keeps_store (m ≫= k).
Proof.
  intros Hm Hk w. unfold_M. specialize (Hm w).
  destruct (m w) as [[a|e] w1]; simpl in *; [|done].
  by rewrite Hk.
Qed.

Lemma keeps_store_lift {A} (r : result A) : keeps_store (lift r).
Proof. by intros w. Qed.

Lemma keeps_store_get_USERS : keeps_store get_USERS.
Proof. by intros w. Qed.

Lemma keeps_store_session_get k : keeps_store (session_get k).
Proof. by intros w. Qed.

Lemma keeps_store_session_setitem k v : keeps_store (session_setitem k v).
Proof. by intros w. Qed.

Lemma keeps_store_session_clear : keeps_store session_clear.
Proof. by intros w. Qed.

Create HintDb frame.
#[export] Hint Resolve keeps_store_ret keeps_store_lift keeps_store_get_USERS
  keeps_store_session_get keeps_store_session_setitem
  keeps_store_session_clear : frame.

Ltac frame :=
  repeat first
    [ progress auto with frame
    | apply keeps_store_bind; [|intros]
    | match goal with
      | |- keeps_store (match ?x with _ => _ end) => destruct x
      end ].

Lemma keeps_store_find_user_by_username n : keeps_store (find_user_by_username n).
Proof. unfold find_user_by_username. frame. Qed.

Lemma keeps_store_filter_users_for_role a : keeps_store (filter_users_for_role a).
Proof. unfold filter_users_for_role. frame. Qed.

#[export] Hint Resolve keeps_store_find_user_by_username
  keeps_store_filter_users_for_role : frame.

Lemma keeps_store_login verify data : keeps_store (login verify data).
Proof. unfold login. frame. Qed.

Lemma keeps_store_logout : keeps_store logout.
Proof. unfold logout. frame. Qed.

Lemma keeps_store_me : keeps_store me.
Proof. unfold me. frame. Qed.

Lemma keeps_store_list_users : keeps_store list_users.
Proof. unfold list_users. frame. Qed.

(** C9. No handler changes the store: after [login], [logout], [me] or
    [list_users], whether it returned or raised, the list [USERS] is the
    list it was before (same records, same order, same fields, the hash
    included). *)
Theorem C9_store_never_mutated
    (bcrypt_verify : option string → string → result bool) data w :
  USERS (snd (login bcrypt_verify data w)) = USERS w ∧
  USERS (snd (logout w)) = USERS w ∧
  USERS (snd (me w)) = USERS w ∧
  USERS (snd (list_users w)) = USERS w.
Proof.
  split; [apply keeps_store_login|].
  split; [apply keeps_store_logout|].
  split; [apply keeps_store_me | apply keeps_store_list_users].
Qed.

(** The part of [login] that runs before the hash is looked at: when the
    body has no "username", or its user name is in no record, the answer is
    401 whatever the verification function is, so it is never consulted. *)
Lemma login_unresolved_ignores_verify
    (verify1 verify2 : option string → string → result bool) data w :
  Forall (λ u : dict, is_Some (u !! "username")) (USERS w) →
  (∀ u, u ∈ USERS w → u !! "username" ≠ data !! "username") →
  login verify1 data w = (Ok invalid_credentials, w) ∧
  login verify2 data w = (Ok invalid_credentials, w).
Proof.
  intros Hnames Hno.
  split; apply login_unresolved; by apply first_with_username_None.
Qed.

(** C10 (where the code departs from it). When the user name resolves to a
    record, [login] hands [data.get("password")] to the verification as it
    is; for a body without the key "password" that is [None], and if the
    verification raises on such a secret, so does [login]: no response is
    returned. *)
Theorem C10_login_raises_without_password
    (bcrypt_verify : option string → string → result bool) data w u h e :
  first_with_username (data !! "username") (USERS w) = Ok (Some u) →
  u !! "password" = Some h →
  data !! "password" = None →
  bcrypt_verify None h = Raise e →
  login bcrypt_verify data w = (Raise e, w).
Proof.
  intros Hu Hh Hp Hv. unfold login, find_user_by_username. unfold_M.
  rewrite Hu. rewrite bool_decide_eq_false_2 by by eapply record_ok_nonempty.
  by rewrite (getitem_Some _ _ _ Hh), Hp, Hv.
Qed.

Lemma C10_witness :
  login marker_verify {["username" := "admin"]} fresh = (Raise TypeError, fresh).
Proof.
  apply (C10_login_raises_without_password marker_verify
           {["username" := "admin"]} fresh
           (mk_user "id-1" "admin" "$adminpass" "Administrador"
                    "admin@ejemplo.com" "admin")
           "$adminpass" TypeError); reflexivity.
Defined.

(** ** Further properties: the two scans *)

Lemma first_with_username_app n l1 l2 :
  Forall (λ v : dict, ∃ m, v !! "username" = Some m ∧ Some m ≠ n) l1 →
  first_with_username n (l1 ++ l2)%list = first_with_username n l2.
Proof.
  induction 1 as [|v l1 (m & Hm & Hne) _ IH]; simpl; [done|].
  unfold_M. rewrite (getitem_Some _ _ _ Hm).
  destruct n as [s|]; simpl; [|done].
  rewrite bool_decide_eq_false_2; [done | congruence].
Qed.

Lemma next_with_id_app uid l1 l2 :
  Forall (λ v : dict, ∃ m, v !! "id" = Some m ∧ m ≠ uid) l1 →
  next_with_id uid (l1 ++ l2)%list = next_with_id uid l2.
Proof.
  induction 1 as [|v l1 (m & Hm & Hne) _ IH]; simpl; [done|].
  unfold_M. rewrite (getitem_Some _ _ _ Hm).
  by rewrite bool_decide_eq_false_2.
Qed.

(** X1. [find_user_by_username] stops at the first record with the name:
    when the records before [u] carry other names and [u] carries the name
    asked for, it returns [u] and leaves the world alone, whatever comes
    after [u] in the store (records with the same name, or records without
    the key "username", are never looked at). *)
Theorem find_user_by_username_first_match w n l1 u l2 :
  USERS w = (l1 ++ u :: l2)%list →
  Forall (λ v : dict, ∃ m, v !! "username" = Some m ∧ Some m ≠ Some n) l1 →
  u !! "username" = Some n →
  find_user_by_username (Some n) w = (Ok (Some u), w).
Proof.
  intros HU Hl1 Hu. unfold find_user_by_username. unfold_M.
  rewrite HU, first_with_username_app by done. simpl. unfold_M.
  rewrite (getitem_Some _ _ _ Hu). simpl. by rewrite bool_decide_eq_true_2.
Qed.

Lemma find_user_by_username_first_match_witness :
  find_user_by_username (Some "super1")
    (mkWorld (raw_users ++ [ {["username" := "super1"]}; ∅ ])%list ∅)
  = (Ok (Some (mk_user "id-2" "super1" "$superpass" "Supervisor Uno"
                       "super1@ejemplo.com" "supervisor")),
     mkWorld (raw_users ++ [ {["username" := "super1"]}; ∅ ])%list ∅).
Proof.
  apply (find_user_by_username_first_match _ "super1"
           [ mk_user "id-1" "admin" "$adminpass" "Administrador"
                     "admin@ejemplo.com" "admin" ]
           _
           [ mk_user "id-3" "usuario1" "$userpass" "Usuario Uno"
                     "user1@ejemplo.com" "usuario";
             {["username" := "super1"]}; ∅ ]).
  - reflexivity.
  - repeat constructor. exists "admin". split; [reflexivity | by_evaluation].
  - reflexivity.
Defined.

(** X2. A record without the key "username" that the scan reaches before
    any match makes [login] raise [KeyError] on that key: no response is
    returned, the verification is not reached and the world is unchanged.
    This holds for every body, also one without "username". *)
Theorem login_raises_on_record_without_username
    (bcrypt_verify : option string → string → result bool) data w l1 u l2 :
  USERS w = (l1 ++ u :: l2)%list →
  Forall (λ v : dict,
            ∃ m, v !! "username" = Some m ∧ Some m ≠ data !! "username") l1 →
  u !! "username" = None →
  login bcrypt_verify data w = (Raise (KeyError "username"), w).
Proof.
  intros HU Hl1 Hu. unfold login, find_user_by_username. unfold_M.
  rewrite HU, first_with_username_app by done. simpl. unfold_M.
  unfold getitem. by rewrite Hu.
Qed.

Lemma login_raises_on_record_without_username_witness :
  login marker_verify {["username" := "ghost"; "password" := "x"]}
        (mkWorld [ {["id" := "id-1"; "username" := "admin"]};
                   {["id" := "id-2"]} ] ∅)
  = (Raise (KeyError "username"),
     mkWorld [ {["id" := "id-1"; "username" := "admin"]};
               {["id" := "id-2"]} ] ∅).
Proof.
  apply (login_raises_on_record_without_username marker_verify _ _
           [ {["id" := "id-1"; "username" := "admin"]} ]
           {["id" := "id-2"]} []).
  - reflexivity.
  - repeat constructor. exists "admin". split; [reflexivity | by_evaluation].
  - reflexivity.
Defined.

(** X3. With a non-empty [user_id] in the session, a record without the
    key "id" that the scan reaches before any match makes [me] and
    [list_users] raise [KeyError] on that key, the world unchanged. *)
Theorem me_and_users_raise_on_record_without_id w uid l1 u l2 :
  session w !! "user_id" = Some uid → uid ≠ "" →
  USERS w = (l1 ++ u :: l2)%list →
  Forall (λ v : dict, ∃ m, v !! "id" = Some m ∧ m ≠ uid) l1 →
  u !! "id" = None →
  me w = (Raise (KeyError "id"), w) ∧
  list_users w = (Raise (KeyError "id"), w).
Proof.
  intros Hs Hne HU Hl1 Hu.
  assert (next_with_id uid (USERS w) = Raise (KeyError "id")) as Hscan.
  { rewrite HU, next_with_id_app by done. simpl. unfold_M.
    unfold getitem. by rewrite Hu. }
  unfold me, list_users. unfold_M. rewrite Hs.
  destruct uid as [|c uid]; [done|]. by rewrite Hscan.
Qed.

Lemma me_and_users_raise_on_record_without_id_witness :
  me (mkWorld [ {["id" := "id-1"; "username" := "admin"]};
                {["username" := "super1"]} ] {["user_id" := "id-2"]})
  = (Raise (KeyError "id"),
     mkWorld [ {["id" := "id-1"; "username" := "admin"]};
               {["username" := "super1"]} ] {["user_id" := "id-2"]}).
Proof.
  refine (proj1 (me_and_users_raise_on_record_without_id _ "id-2"
           [ {["id" := "id-1"; "username" := "admin"]} ]
           {["username" := "super1"]} [] _ _ _ _ _)).
  - reflexivity.
  - by_evaluation.
  - reflexivity.
  - repeat constructor. exists "id-1". split; [reflexivity | by_evaluation].
  - reflexivity.
Defined.

(** ** Further properties: what the handlers raise and write *)

Lemma next_with_id_total uid us :
  Forall (λ u : dict, is_Some (u !! "id")) us →
  ∃ o, next_with_id uid us = Ok o.
Proof.
  induction 1 as [|x us [i Hi] _ IH]; simpl; [by eexists|].
  unfold_M. rewrite (getitem_Some _ _ _ Hi).
  case_bool_decide; [by eexists | done].
Qed.

Lemma me_world w : snd (me w) = w.
Proof.
  unfold me. unfold_M.
  destruct (session w !! "user_id") as [[|c uid]|]; try done.
  destruct (next_with_id _ _) as [[u|]|]; try done.
  by case_bool_decide.
Qed.

Lemma list_users_world w : snd (list_users w) = w.
Proof.
  unfold list_users. unfold_M.
  destruct (session w !! "user_id") as [[|c uid]|]; try done.
  destruct (next_with_id _ _) as [[a|]|]; try done.
  case_bool_decide; [done|].
  destruct (filter_users_for_role a w) as [r w1] eqn:Hf.
  apply filter_users_for_role_sublist in Hf as [-> _].
  by destruct r.
Qed.

(** X4. [me] and [list_users] never write: whatever the store and the
    session, and whether they return or raise, the world after the call
    (store and session) is the world before it. *)
Theorem me_and_users_leave_world_untouched w :
  snd (me w) = w ∧ snd (list_users w) = w.
Proof.
  split.
  - apply me_world.
  - apply list_users_world.
Qed.

(** X5. On a store whose records carry the keys the code indexes, [me]
    and [list_users] return a response for every session: they never
    raise. *)
Theorem me_and_users_never_raise w :
  store_ok (USERS w) →
  (∃ resp, me w = (Ok resp, w)) ∧ (∃ resp, list_users w = (Ok resp, w)).
Proof.
  intros Hok.
  pose proof (next_with_id_total) as Htot.
  split.
  - unfold me. unfold_M.
    destruct (session w !! "user_id") as [[|c uid]|]; try by eexists.
    destruct (Htot (String c uid) _ (store_ok_ids _ Hok)) as [[u|] ->];
      [|by eexists].
    case_bool_decide; by eexists.
  - unfold list_users. unfold_M.
    destruct (session w !! "user_id") as [[|c uid]|]; try by eexists.
    destruct (Htot (String c uid) _ (store_ok_ids _ Hok)) as [[a|] Ha];
      rewrite Ha; [|by eexists].
    case_bool_decide; [by eexists|].
    destruct (next_with_id_Some _ _ _ Ha) as [Hin Hid].
    destruct (store_ok_elem _ _ Hok Hin) as (_ & _ & _ & [role Hrole]).
    rewrite (filter_users_for_role_visible w a role _ Hok Hrole Hid).
    by eexists.
Qed.

Lemma me_and_users_never_raise_witness :
  (∃ resp, me (logged_in "id-3") = (Ok resp, logged_in "id-3")) ∧
  (∃ resp, list_users (logged_in "id-3") = (Ok resp, logged_in "id-3")).
Proof. apply (me_and_users_never_raise (logged_in "id-3")). by_evaluation. Defined.

(** X6. On such a store, [login] raises only when the verification
    raises: if [login] raises [e], the user name resolved to a record and
    the verification, called with the body's password and that record's
    hash, raised [e]; the world is then unchanged. *)
Theorem login_raises_only_through_verify
    (bcrypt_verify : option string → string → result bool) data w e w' :
  store_ok (USERS w) →
  login bcrypt_verify data w = (Raise e, w') →
  w' = w ∧
  ∃ u h, first_with_username (data !! "username") (USERS w) = Ok (Some u) ∧
         u !! "password" = Some h ∧
         bcrypt_verify (data !! "password") h = Raise e.
Proof.
  intros Hok. unfold login, find_user_by_username. unfold_M.
  destruct (first_with_username_total (data !! "username") _
              (store_ok_usernames _ Hok)) as [[u|] Hu]; rewrite Hu; [|done].
  destruct (first_with_username_Some _ _ _ Hu) as [Hin _].
  destruct (store_ok_elem _ _ Hok Hin) as ([i Hi] & _ & [h Hh] & [r Hr]).
  case_bool_decide; [done|].
  rewrite (getitem_Some _ _ _ Hh), (getitem_Some _ _ _ Hi),
    (getitem_Some _ _ _ Hr).
  destruct (bcrypt_verify _ h) as [[]|e'] eqn:Hv; simpl; try done.
  intros [= <- <-]. split; [done|]. by exists u, h.
Qed.

Lemma login_raises_only_through_verify_witness :
  ∃ u h, first_with_username (Some "admin") raw_users = Ok (Some u) ∧
         u !! "password" = Some h ∧
         marker_verify None h = Raise TypeError.
Proof.
  refine (proj2 (login_raises_only_through_verify marker_verify
            {["username" := "admin"]} fresh TypeError fresh _ _)).
  - by_evaluation.
  - vm_compute. reflexivity.
Defined.

(** X7. The session write of [login] comes before the read of the role:
    when the resolved record has an id but no key "role" and the password
    verifies, [login] raises [KeyError] on "role" and the session has
    already gained [user_id]. *)
Theorem login_writes_session_before_missing_role
    (bcrypt_verify : option string → string → result bool) data w u h i :
  first_with_username (data !! "username") (USERS w) = Ok (Some u) →
  u !! "password" = Some h → u !! "id" = Some i → u !! "role" = None →
  bcrypt_verify (data !! "password") h = Ok true →
  login bcrypt_verify data w =
    (Raise (KeyError "role"),
     mkWorld (USERS w) (<["user_id" := i]> (session w))).
Proof.
  intros Hu Hh Hi Hr Hv. unfold login, find_user_by_username. unfold_M.
  rewrite Hu. rewrite bool_decide_eq_false_2 by by eapply record_ok_nonempty.
  rewrite (getitem_Some _ _ _ Hh), Hv, (getitem_Some _ _ _ Hi). simpl.
  unfold getitem. by rewrite Hr.
Qed.

Lemma login_writes_session_before_missing_role_witness :
  login marker_verify {["username" := "x"; "password" := "pw"]}
    (mkWorld [ {["id" := "id-9"; "username" := "x"; "password" := "$pw"]} ] ∅)
  = (Raise (KeyError "role"),
     mkWorld [ {["id" := "id-9"; "username" := "x"; "password" := "$pw"]} ]
             (<["user_id" := "id-9"]> ∅)).
Proof.
  apply (login_writes_session_before_missing_role marker_verify
           {["username" := "x"; "password" := "pw"]}
           (mkWorld [ {["id" := "id-9"; "username" := "x";
                        "password" := "$pw"]} ] ∅)
           {["id" := "id-9"; "username" := "x"; "password" := "$pw"]}
           "$pw" "id-9"); reflexivity.
Defined.

(** X8. [me] and [list_users] reject the same sessions with the same
    response: a 401 response is what [me] returns exactly when it is what
    [list_users] returns. *)
Theorem me_and_users_reject_alike w resp :
  status_code resp = Some 401 →
  me w = (Ok resp, w) ↔ list_users w = (Ok resp, w).
Proof.
  intros Hst. unfold me, list_users. unfold_M.
  destruct (session w !! "user_id") as [[|c uid]|]; try done.
  destruct (next_with_id _ _) as [[a|]|]; try done.
  case_bool_decide; [done|].
  destruct (filter_users_for_role a w) as [[l|] w1]; split;
    intros [= <-]; done.
Qed.

Lemma me_and_users_reject_alike_witness :
  me (logged_in "ghost") = (Ok user_not_found, logged_in "ghost") ↔
  list_users (logged_in "ghost") = (Ok user_not_found, logged_in "ghost").
Proof. apply me_and_users_reject_alike. reflexivity. Defined.

(** ** Further properties: what a logged-in caller sees *)

Lemma next_with_id_unique i us u :
  Forall (λ u : dict, is_Some (u !! "id")) us →
  unique_ids us →
  u ∈ us → u !! "id" = Some i →
  next_with_id i us = Ok (Some u).
Proof.
  unfold unique_ids.
  induction 1 as [|x us [m Hm] _ IH]; intros Hnd Hin Hu; [by inversion Hin|].
  simpl in *. apply NoDup_cons in Hnd as [Hx Hnd].
  unfold_M. rewrite (getitem_Some _ _ _ Hm).
  case_bool_decide as Heq.
  - subst m. inversion Hin as [|? ? ? Hin']; subst; [done|].
    destruct Hx. rewrite Hm, <- Hu.
    by apply (list_elem_of_fmap_2 (λ u : dict, u !! "id")).
  - inversion Hin; subst; [congruence|]. by apply IH.
Qed.

Lemma filter_unique_id i us u :
  unique_ids us → u ∈ us → u !! "id" = Some i →
  filter (λ v : dict, v !! "id" = Some i) us = [u].
Proof.
  unfold unique_ids. induction us as [|x us IH]; intros Hnd Hin Hu;
    [by inversion Hin|].
  simpl in Hnd. apply NoDup_cons in Hnd as [Hx Hnd].
  rewrite filter_cons. destruct (decide (x !! "id" = Some i)) as [Hxi|Hxi].
  - assert (filter (λ v : dict, v !! "id" = Some i) us = []) as ->.
    { destruct (filter _ us) as [|v tl] eqn:Hf; [done|].
      assert (v ∈ filter (λ v : dict, v !! "id" = Some i) us) as Hv
        by (rewrite Hf; left).
      apply list_elem_of_filter in Hv as [Hvi Hv]. destruct Hx.
      rewrite Hxi, <- Hvi.
      by apply (list_elem_of_fmap_2 (λ u : dict, u !! "id")). }
    inversion Hin as [|? ? ? Hin']; subst; [done|].
    destruct Hx. rewrite Hxi, <- Hu.
    by apply (list_elem_of_fmap_2 (λ u : dict, u !! "id")).
  - inversion Hin; subst; [done|]. by apply IH.
Qed.

Lemma caller_visible us u role pid :
  u ∈ us → u !! "role" = Some role → u !! "id" = Some pid →
  u ∈ visible_users role pid us.
Proof.
  intros Hin Hrole Hid. unfold visible_users.
  repeat case_bool_decide; [done| |]; apply list_elem_of_filter; split;
    try done.
  rewrite Hrole. congruence.
Qed.

Lemma length_filter_role_split (us : list dict) :
  length (filter (λ u : dict, u !! "role" ≠ Some "admin") us) +
  length (filter (λ u : dict, u !! "role" = Some "admin") us) = length us.
Proof.
  induction us as [|x us IH]; [done|].
  rewrite !filter_cons.
  destruct (decide (x !! "role" = Some "admin"));
    destruct (decide (x !! "role" ≠ Some "admin")); simpl; try done; lia.
Qed.

(** [list_users] for a session that resolves, in terms of the rule. *)
Lemma list_users_resolved w uid a role :
  store_ok (USERS w) →
  session w !! "user_id" = Some uid → uid ≠ "" →
  next_with_id uid (USERS w) = Ok (Some a) → a !! "role" = Some role →
  list_users w =
    (Ok (mkResponse
           (JArray (without_password <$> visible_users role uid (USERS w)))
           None), w).
Proof.
  intros Hok Hs Hne Ha Hrole.
  destruct (next_with_id_Some _ _ _ Ha) as [Hin Hid].
  unfold list_users. unfold_M. rewrite Hs.
  destruct uid as [|c uid]; [done|]. rewrite Ha.
  rewrite bool_decide_eq_false_2
    by (eapply record_ok_nonempty; by rewrite Hid).
  by rewrite (filter_users_for_role_visible w a role _ Hok Hrole Hid).
Qed.

(** X9. On a well-formed store, the record [me] returns is one of the
    records [list_users] returns for the same session: every role sees at
    least itself. *)
Theorem caller_is_among_users w d :
  store_ok (USERS w) →
  me w = (Ok (mkResponse (JObject d) None), w) →
  ∃ l, list_users w = (Ok (mkResponse (JArray l) None), w) ∧ d ∈ l.
Proof.
  intros Hok Hme.
  destruct (me_inv _ _ _ Hme)
    as [_ [[=]|[[=]|(uid & u & Hs & Hu & [= ->])]]].
  destruct (next_with_id_Some _ _ _ Hu) as [Hin Hid].
  destruct (store_ok_elem _ _ Hok Hin) as (_ & _ & _ & [role Hrole]).
  assert (uid ≠ "") as Hne.
  { intros ->. rewrite me_no_user_id in Hme by by right. done. }
  eexists. split; [by eapply list_users_resolved|].
  apply list_elem_of_fmap_2. by apply caller_visible.
Qed.

Lemma caller_is_among_users_witness :
  ∃ l, list_users (logged_in "id-2") =
         (Ok (mkResponse (JArray l) None), logged_in "id-2") ∧
       without_password
         (mk_user "id-2" "super1" "$superpass" "Supervisor Uno"
                  "super1@ejemplo.com" "supervisor") ∈ l.
Proof.
  apply (caller_is_among_users (logged_in "id-2")).
  - by_evaluation.
  - vm_compute. reflexivity.
Defined.

(** X10. Login, then [me]: on a well-formed store with unique user names
    and unique ids, after a successful login of [U] (whose id is not the
    empty string), whatever the session held before, [me] returns [U]'s own
    record without the hash. *)
Theorem login_then_me_returns_own_record
    (bcrypt_verify : option string → string → result bool)
    w U n h i r p data :
  store_ok (USERS w) → unique_usernames (USERS w) → unique_ids (USERS w) →
  U ∈ USERS w → U !! "username" = Some n → U !! "password" = Some h →
  U !! "id" = Some i → i ≠ "" → U !! "role" = Some r →
  data !! "username" = Some n → data !! "password" = Some p →
  bcrypt_verify (Some p) h = Ok true →
  fst (me (snd (login bcrypt_verify data w))) =
    Ok (mkResponse (JObject (without_password U)) None).
Proof.
  intros Hok Hun Hui HU Hn Hh Hi Hne Hr Hdn Hdp Hv.
  rewrite (login_resolved _ _ _ U h i r); try done.
  2:{ rewrite Hdn. apply first_with_username_unique; auto using store_ok_usernames. }
  rewrite Hdp, Hv. simpl. unfold me. unfold_M. simpl.
  rewrite lookup_insert_eq. destruct i as [|c i]; [done|].
  rewrite (next_with_id_unique _ _ U); auto using store_ok_ids.
  rewrite bool_decide_eq_false_2; [done|].
  eapply record_ok_nonempty. by rewrite Hi.
Qed.

Lemma login_then_me_returns_own_record_witness :
  fst (me (snd (login marker_verify
                  {["username" := "usuario1"; "password" := "userpass"]}
                  (logged_in "id-1")))) =
    Ok (mkResponse
          (JObject (without_password
                      (mk_user "id-3" "usuario1" "$userpass" "Usuario Uno"
                               "user1@ejemplo.com" "usuario"))) None).
Proof.
  apply (login_then_me_returns_own_record marker_verify (logged_in "id-1")
           _ "usuario1" "$userpass" "id-3" "usuario" "userpass");
    try reflexivity; by_evaluation.
Defined.

(** X11. A record whose id is the empty string can log in but is never
    authenticated afterwards: the login succeeds and writes the empty id,
    and [me] and [list_users] then answer 401 "No autenticado", because
    [not user_id] holds for the empty string. *)
Theorem empty_id_logs_in_but_stays_unauthenticated
    (bcrypt_verify : option string → string → result bool)
    w U n h r p data :
  store_ok (USERS w) → unique_usernames (USERS w) →
  U ∈ USERS w → U !! "username" = Some n → U !! "password" = Some h →
  U !! "id" = Some "" → U !! "role" = Some r →
  data !! "username" = Some n → data !! "password" = Some p →
  bcrypt_verify (Some p) h = Ok true →
  fst (login bcrypt_verify data w) = Ok (login_success r) ∧
  fst (me (snd (login bcrypt_verify data w))) = Ok not_authenticated ∧
  fst (list_users (snd (login bcrypt_verify data w))) = Ok not_authenticated.
Proof.
  intros Hok Hun HU Hn Hh Hi Hr Hdn Hdp Hv.
  rewrite (login_resolved _ _ _ U h "" r); try done.
  2:{ rewrite Hdn. apply first_with_username_unique; auto using store_ok_usernames. }
  rewrite Hdp, Hv. simpl. split; [done|].
  rewrite me_no_user_id, list_users_no_user_id;
    [done | right; apply lookup_insert_eq..].
Qed.

Lemma empty_id_logs_in_but_stays_unauthenticated_witness :
  fst (login marker_verify {["username" := "x"; "password" := "pw"]}
         (mkWorld [ mk_user "" "x" "$pw" "X" "x@ejemplo.com" "admin" ] ∅))
    = Ok (login_success "admin") ∧
  fst (me (snd (login marker_verify {["username" := "x"; "password" := "pw"]}
         (mkWorld [ mk_user "" "x" "$pw" "X" "x@ejemplo.com" "admin" ] ∅))))
    = Ok not_authenticated ∧
  fst (list_users
         (snd (login marker_verify {["username" := "x"; "password" := "pw"]}
         (mkWorld [ mk_user "" "x" "$pw" "X" "x@ejemplo.com" "admin" ] ∅))))
    = Ok not_authenticated.
Proof.
  apply (empty_id_logs_in_but_stays_unauthenticated marker_verify
           (mkWorld [ mk_user "" "x" "$pw" "X" "x@ejemplo.com" "admin" ] ∅)
           (mk_user "" "x" "$pw" "X" "x@ejemplo.com" "admin")
           "x" "$pw" "admin" "pw");
    try reflexivity; by_evaluation.
Defined.

(** X12. An admin sees the whole store: on a well-formed store with unique
    ids, for a session holding the id of a record with role "admin",
    [list_users] returns every record of the store, in order, without the
    hash; the array is as long as the store. *)
Theorem admin_sees_whole_store w uid a :
  store_ok (USERS w) → unique_ids (USERS w) →
  session w !! "user_id" = Some uid → uid ≠ "" →
  a ∈ USERS w → a !! "id" = Some uid → a !! "role" = Some "admin" →
  ∃ l, list_users w = (Ok (mkResponse (JArray l) None), w) ∧
       l = without_password <$> USERS w ∧
       length l = length (USERS w).
Proof.
  intros Hok Hui Hs Hne Ha Hid Hrole.
  pose proof (next_with_id_unique uid _ a (store_ok_ids _ Hok) Hui Ha Hid)
    as Hnext.
  eexists. split; [by eapply list_users_resolved|].
  unfold visible_users. rewrite bool_decide_eq_true_2 by done.
  split; [done | by rewrite length_fmap].
Qed.

Lemma admin_sees_whole_store_witness :
  ∃ l, list_users (logged_in "id-1") =
         (Ok (mkResponse (JArray l) None), logged_in "id-1") ∧
       l = without_password <$> raw_users ∧
       length l = 3.
Proof.
  apply (admin_sees_whole_store (logged_in "id-1") "id-1"
           (mk_user "id-1" "admin" "$adminpass" "Administrador"
                    "admin@ejemplo.com" "admin"));
    try reflexivity; by_evaluation.
Defined.

(** X13. A supervisor never sees an admin: under the same assumptions, for
    a session of a record with role "supervisor", no record [list_users]
    returns has role "admin", and the array is shorter than the store by
    exactly the number of admin records. *)
Theorem supervisor_never_sees_admins w uid a :
  store_ok (USERS w) → unique_ids (USERS w) →
  session w !! "user_id" = Some uid → uid ≠ "" →
  a ∈ USERS w → a !! "id" = Some uid → a !! "role" = Some "supervisor" →
  ∃ l, list_users w = (Ok (mkResponse (JArray l) None), w) ∧
       Forall (λ d : dict, d !! "role" ≠ Some "admin") l ∧
       length l +
       length (filter (λ u : dict, u !! "role" = Some "admin") (USERS w))
       = length (USERS w).
Proof.
  intros Hok Hui Hs Hne Ha Hid Hrole.
  pose proof (next_with_id_unique uid _ a (store_ok_ids _ Hok) Hui Ha Hid)
    as Hnext.
  eexists. split; [by eapply list_users_resolved|].
  unfold visible_users. rewrite bool_decide_eq_false_2 by done.
  rewrite bool_decide_eq_true_2 by done. split.
  - apply Forall_fmap, Forall_forall. intros u Hu. simpl.
    apply list_elem_of_filter in Hu as [Hu _].
    by rewrite without_password_other.
  - rewrite length_fmap. apply length_filter_role_split.
Qed.

Lemma supervisor_never_sees_admins_witness :
  ∃ l, list_users (logged_in "id-2") =
         (Ok (mkResponse (JArray l) None), logged_in "id-2") ∧
       Forall (λ d : dict, d !! "role" ≠ Some "admin") l ∧
       length l + 1 = 3.
Proof.
  apply (supervisor_never_sees_admins (logged_in "id-2") "id-2"
           (mk_user "id-2" "super1" "$superpass" "Supervisor Uno"
                    "super1@ejemplo.com" "supervisor"));
    try reflexivity; by_evaluation.
Defined.

(** X14. Any other role sees exactly itself: under the same assumptions,
    for a session of a record whose role is neither "admin" nor
    "supervisor" (the seeded "usuario", or any unknown role),
    [list_users] returns a one-element array, that record without the
    hash. *)
Theorem other_roles_see_only_themselves w uid a role :
  store_ok (USERS w) → unique_ids (USERS w) →
  session w !! "user_id" = Some uid → uid ≠ "" →
  a ∈ USERS w → a !! "id" = Some uid → a !! "role" = Some role →
  role ≠ "admin" → role ≠ "supervisor" →
  list_users w =
    (Ok (mkResponse (JArray [without_password a]) None), w).
Proof.
  intros Hok Hui Hs Hne Ha Hid Hrole Hna Hns.
  pose proof (next_with_id_unique uid _ a (store_ok_ids _ Hok) Hui Ha Hid)
    as Hnext.
  rewrite (list_users_resolved w uid a role) by done.
  unfold visible_users. rewrite !bool_decide_eq_false_2 by done.
  by rewrite (filter_unique_id uid _ a).
Qed.

Lemma other_roles_see_only_themselves_witness :
  list_users (logged_in "id-3") =
    (Ok (mkResponse
           (JArray [without_password
                      (mk_user "id-3" "usuario1" "$userpass" "Usuario Uno"
                               "user1@ejemplo.com" "usuario")]) None),
     logged_in "id-3").
Proof.
  apply (other_roles_see_only_themselves (logged_in "id-3") "id-3" _ "usuario");
    try reflexivity; by_evaluation.
Defined.

(** ** Further properties: the session *)

(** The world [login] leaves, on every path. *)
Lemma login_world (verify : option string → string → result bool) data w :
  snd (login verify data w) = w ∨
  ∃ u i, u ∈ USERS w ∧ u !! "id" = Some i ∧
         snd (login verify data w) =
           mkWorld (USERS w) (<["user_id" := i]> (session w)).
Proof.
  unfold login, find_user_by_username. unfold_M.
  destruct (first_with_username _ _) as [[u|]|] eqn:Hu; [| by left..].
  apply first_with_username_Some in Hu as [Hin _].
  case_bool_decide; [by left|].
  destruct (getitem u "password") as [h|]; [|by left].
  destruct (verify _ h) as [[]|]; simpl; [| by left..].
  destruct (getitem u "id") as [i|] eqn:Hi; [|by left].
  right. exists u, i. split; [done|]. split; [by apply getitem_Ok|].
  by destruct (getitem u "role").
Qed.

(** X15. The only value ever placed in the session is the id of a record
    of the store: a session that is empty, or holds just [user_id] with
    such an id, is again of that shape after any of the four handlers,
    whether the handler returned or raised. *)
Theorem handlers_keep_session_of_store
    (bcrypt_verify : option string → string → result bool) data w :
  session_of_store w →
  session_of_store (snd (login bcrypt_verify data w)) ∧
  session_of_store (snd (logout w)) ∧
  session_of_store (snd (me w)) ∧
  session_of_store (snd (list_users w)).
Proof.
  intros Hinv.
  rewrite (me_world w), (list_users_world w).
  split; [|split; [by left | done]].
  destruct (login_world bcrypt_verify data w) as [->|(u & i & Hu & Hi & ->)];
    [done|].
  right. exists u, i. split; [done|]. split; [done|]. simpl.
  destruct Hinv as [->|(u' & i' & _ & _ & ->)].
  - apply insert_empty.
  - apply insert_singleton_eq.
Qed.

Lemma handlers_keep_session_of_store_witness :
  session_of_store
    (snd (login marker_verify
            {["username" := "usuario1"; "password" := "userpass"]}
            (logged_in "id-1"))).
Proof.
  apply (handlers_keep_session_of_store marker_verify
           {["username" := "usuario1"; "password" := "userpass"]}
           (logged_in "id-1")).
  right. exists (mk_user "id-1" "admin" "$adminpass" "Administrador"
                         "admin@ejemplo.com" "admin"), "id-1".
  split; [by_evaluation|]. split; reflexivity.
Defined.

(** ** Further properties: the seeding script *)

Section SeedingLemmas.

Variable bcrypt_hash : nat → string → result string.

Lemma hash_passwords_length n us out :
  hash_passwords bcrypt_hash n us = Ok out → length out = length us.
Proof.
  revert n out. induction us as [|x us IH]; intros n out; simpl.
  - by intros [= <-].
  - unfold_M. destruct (getitem x "password") as [p|]; [|done].
    destruct (bcrypt_hash n p) as [h|]; [|done].
    destruct (hash_passwords bcrypt_hash (S n) us) as [tl|] eqn:Htl; [|done].
    intros [= <-]. simpl. by rewrite (IH _ _ Htl).
Qed.

Lemma hash_passwords_at n us out k u :
  hash_passwords bcrypt_hash n us = Ok out →
  us !! k = Some u →
  ∃ p h, u !! "password" = Some p ∧ bcrypt_hash (n + k) p = Ok h ∧
         out !! k = Some (<["password" := h]> u).
Proof.
  revert n out k. induction us as [|x us IH]; intros n out k; simpl.
  - intros _ Hk. by rewrite lookup_nil in Hk.
  - unfold_M. destruct (getitem x "password") as [p|] eqn:Hp; [|done].
    destruct (bcrypt_hash n p) as [h|] eqn:Hh; [|done].
    destruct (hash_passwords bcrypt_hash (S n) us) as [tl|] eqn:Htl; [|done].
    intros [= <-] Hk. destruct k as [|k]; simpl in *.
    + injection Hk as <-. exists p, h.
      rewrite Nat.add_0_r. by split; [apply getitem_Ok|].
    + destruct (IH _ _ _ Htl Hk) as (q & g & Hq & Hg & Hout).
      exists q, g. by rewrite <- Nat.add_succ_comm.
Qed.

Lemma hash_passwords_other_key n us out key :
  key ≠ "password" →
  hash_passwords bcrypt_hash n us = Ok out →
  (λ u : dict, u !! key) <$> out = (λ u : dict, u !! key) <$> us.
Proof.
  intros Hkey. revert n out. induction us as [|x us IH]; intros n out; simpl.
  - by intros [= <-].
  - unfold_M. destruct (getitem x "password") as [p|]; [|done].
    destruct (bcrypt_hash n p) as [h|]; [|done].
    destruct (hash_passwords bcrypt_hash (S n) us) as [tl|] eqn:Htl; [|done].
    intros [= <-]. rewrite !fmap_cons.
    f_equal; [by rewrite lookup_insert_ne | by eapply IH].
Qed.

Lemma hash_passwords_store_ok n us out :
  hash_passwords bcrypt_hash n us = Ok out →
  Forall (λ u : dict, is_Some (u !! "id") ∧ is_Some (u !! "username") ∧
                      is_Some (u !! "role")) us →
  store_ok out.
Proof.
  revert n out. induction us as [|x us IH]; intros n out; simpl.
  - intros [= <-] _. constructor.
  - unfold_M. destruct (getitem x "password") as [p|]; [|done].
    destruct (bcrypt_hash n p) as [h|]; [|done].
    destruct (hash_passwords bcrypt_hash (S n) us) as [tl|] eqn:Htl; [|done].
    intros [= <-] Hall. apply Forall_cons in Hall as [(Hi & Hn & Hr) Hall].
    constructor; [|by eapply IH].
    unfold record_ok. rewrite lookup_insert_eq, !lookup_insert_ne by done.
    by eauto.
Qed.

Lemma hash_passwords_unique_usernames n us out :
  hash_passwords bcrypt_hash n us = Ok out →
  unique_usernames us → unique_usernames out.
Proof.
  intros H. unfold unique_usernames.
  by rewrite (hash_passwords_other_key n us out).
Qed.

Lemma hash_passwords_unique_ids n us out :
  hash_passwords bcrypt_hash n us = Ok out →
  unique_ids us → unique_ids out.
Proof.
  intros H. unfold unique_ids.
  by rewrite (hash_passwords_other_key n us out).
Qed.

(** X16. The hashing loop touches the key "password" only: when it
    succeeds, the list has the same length and order, and the record at
    each position is the old one with "password" replaced by the hash that
    the call of that position returned for the clear password. *)
Theorem hash_passwords_replaces_password_only n us out :
  hash_passwords bcrypt_hash n us = Ok out →
  length out = length us ∧
  ∀ k u, us !! k = Some u →
    ∃ p h, u !! "password" = Some p ∧ bcrypt_hash (n + k) p = Ok h ∧
           out !! k = Some (<["password" := h]> u).
Proof.
  intros Hrun. split.
  - by eapply hash_passwords_length.
  - intros k u Hk. by eapply hash_passwords_at.
Qed.

(** X17. The hashing loop keeps what the handlers assume of the store:
    if every input record has the keys "id", "username" and "role", every
    output record has those and "password"; and user names and ids that
    were unique stay unique. *)
Theorem hash_passwords_keeps_store_assumptions n us out :
  hash_passwords bcrypt_hash n us = Ok out →
  (Forall (λ u : dict, is_Some (u !! "id") ∧ is_Some (u !! "username") ∧
                       is_Some (u !! "role")) us → store_ok out) ∧
  (unique_usernames us → unique_usernames out) ∧
  (unique_ids us → unique_ids out).
Proof.
  intros H. split; [by eapply hash_passwords_store_ok|].
  split; [by eapply hash_passwords_unique_usernames
         | by eapply hash_passwords_unique_ids].
Qed.

End SeedingLemmas.

Lemma hash_passwords_replaces_password_only_witness :
  length raw_users = 3 ∧
  ∀ k u, raw_users_initial "id-1" "id-2" "id-3" !! k = Some u →
    ∃ p h, u !! "password" = Some p ∧ marker_hash (0 + k) p = Ok h ∧
           raw_users !! k = Some (<["password" := h]> u).
Proof.
  apply (hash_passwords_replaces_password_only marker_hash 0
           (raw_users_initial "id-1" "id-2" "id-3") raw_users).
  vm_compute. reflexivity.
Defined.

Lemma hash_passwords_keeps_store_assumptions_witness :
  store_ok raw_users ∧ unique_usernames raw_users ∧ unique_ids raw_users.
Proof.
  destruct (hash_passwords_keeps_store_assumptions marker_hash 0
              (raw_users_initial "id-1" "id-2" "id-3") raw_users)
    as (H1 & H2 & H3); [vm_compute; reflexivity|].
  split; [apply H1; by_evaluation|].
  split; [apply H2 | apply H3]; by_evaluation.
Defined.

(** With the stand-ins and the fixed identifiers, the script produces the
    store used in the examples. *)
Example create_users_marker :
  create_users marker_hash "id-1" "id-2" "id-3" = Ok raw_users.
Proof. vm_compute. reflexivity. Qed.

(** X18. Seeding, then login: let the store be what the hashing loop made
    of a list of records with clear passwords, the list having unique user
    names and the keys the handlers index. If the library verifies every
    password against a hash it produced for it, then every seeded user logs
    in with the clear password: the response carries the user's role and
    the session gains the user's id. *)
Theorem seeded_user_logs_in
    (bcrypt_hash : nat → string → result string)
    (bcrypt_verify : option string → string → result bool)
    n0 raw store U n p i r s :
  (∀ k q h, bcrypt_hash k q = Ok h → bcrypt_verify (Some q) h = Ok true) →
  hash_passwords bcrypt_hash n0 raw = Ok store →
  store_ok raw → unique_usernames raw →
  U ∈ raw → U !! "username" = Some n → U !! "password" = Some p →
  U !! "id" = Some i → U !! "role" = Some r →
  login bcrypt_verify {["username" := n; "password" := p]} (mkWorld store s) =
    (Ok (login_success r), mkWorld store (<["user_id" := i]> s)).
Proof.
  intros Hcontract Hseed Hok Hun HU Hn Hp Hi Hr.
  pose proof (hash_passwords_unique_usernames _ _ _ _ Hseed Hun) as Hun'.
  assert (store_ok store) as Hstore.
  { eapply hash_passwords_store_ok; [exact Hseed|].
    eapply Forall_impl; [exact Hok|]. by intros u (? & ? & _ & ?). }
  apply list_elem_of_lookup in HU as [k Hk].
  destruct (hash_passwords_at _ _ _ _ _ _ Hseed Hk)
    as (q & h & Hq & Hh & Hout).
  assert (q = p) as -> by congruence.
  assert (({["username" := n; "password" := p]} : dict) !! "username" = Some n)
    as Hdn by apply lookup_insert_eq.
  assert (({["username" := n; "password" := p]} : dict) !! "password" = Some p)
    as Hdp by (rewrite lookup_insert_ne by done; apply lookup_insert_eq).
  rewrite (login_resolved _ _ _ (<["password" := h]> U) h i r).
  - by rewrite Hdp, (Hcontract _ _ _ Hh).
  - rewrite Hdn.
    apply first_with_username_unique; auto using store_ok_usernames.
    + apply list_elem_of_lookup. by exists k.
    + by rewrite lookup_insert_ne.
  - apply lookup_insert_eq.
  - by rewrite lookup_insert_ne.
  - by rewrite lookup_insert_ne.
Qed.

Lemma seeded_user_logs_in_witness :
  login marker_verify {["username" := "usuario1"; "password" := "userpass"]}
        (mkWorld raw_users ∅) =
    (Ok (login_success "usuario"),
     mkWorld raw_users (<["user_id" := "id-3"]> ∅)).
Proof.
  apply (seeded_user_logs_in marker_hash marker_verify 0
           (raw_users_initial "id-1" "id-2" "id-3") raw_users
           (mk_user "id-3" "usuario1" "userpass" "Usuario Uno"
                    "user1@ejemplo.com" "usuario")
           "usuario1" "userpass" "id-3" "usuario" ∅);
    try reflexivity; try by_evaluation.
  intros k q h [= <-]. simpl. by rewrite bool_decide_eq_true_2.
Defined.

(** X19. What the script writes is a store the handlers' theorems apply
    to: whatever identifiers were drawn and whatever hashes the library
    returned, the three records carry "id", "username", "password" and
    "role", and their user names are pairwise different; their ids are
    pairwise different when the drawn identifiers are. *)
Theorem create_users_store_is_well_formed
    (bcrypt_hash : nat → string → result string) id1 id2 id3 store :
  create_users bcrypt_hash id1 id2 id3 = Ok store →
  length store = 3 ∧ store_ok store ∧ unique_usernames store ∧
  (id1 ≠ id2 → id1 ≠ id3 → id2 ≠ id3 → unique_ids store).
Proof.
  unfold create_users. intros Hseed.
  split; [by rewrite (hash_passwords_length _ _ _ _ Hseed)|].
  split; [|split].
  - eapply hash_passwords_store_ok; [exact Hseed|].
    repeat constructor; by eexists.
  - eapply hash_passwords_unique_usernames; [exact Hseed|]. by_evaluation.
  - intros H12 H13 H23.
    eapply hash_passwords_unique_ids; [exact Hseed|]. unfold unique_ids. simpl.
    repeat (apply NoDup_cons; split); try apply NoDup_nil_2;
      rewrite ?not_elem_of_cons; repeat split;
      try (intros [=]; done); apply not_elem_of_nil.
Qed.

Lemma create_users_store_is_well_formed_witness :
  length raw_users = 3 ∧ store_ok raw_users ∧ unique_usernames raw_users ∧
  ("id-1" ≠ "id-2" → "id-1" ≠ "id-3" → "id-2" ≠ "id-3" → unique_ids raw_users).
Proof.
  apply (create_users_store_is_well_formed marker_hash "id-1" "id-2" "id-3").
  vm_compute. reflexivity.
Defined.

(** ** Further properties: start-up configuration *)

(** X20. The cookie is marked secure exactly when the environment has
    [ENV] equal to "production", and exactly then debug mode is off; in
    every other environment (another value, the empty string, or [ENV]
    unset, which reads as "development") debug is on and the cookie is not
    secure. The cookie is HTTP-only in every environment. *)
Theorem secure_cookie_exactly_in_production (environ : dict) :
  (session_config_secure environ = true ↔ environ !! "ENV" = Some "production") ∧
  app_debug environ = negb (session_config_secure environ) ∧
  session_config_httponly environ = true.
Proof.
  unfold session_config_secure, app_debug, session_config_httponly, ENV.
  split; [|done].
  rewrite bool_decide_eq_true.
  destruct (environ !! "ENV") as [e|]; simpl; [|done].
  split; [by intros -> | by intros [= ->]].
Qed.

(** X21. The temporary secret is used, and the warning printed, exactly
    when [SESSION_SECRET] is unset or empty; a non-empty configured value
    is used as it is, without warning. *)
Theorem session_secret_fallback (environ : dict) token_hex :
  (snd (SESSION_SECRET_HEX environ token_hex) = true ↔
     environ !! "SESSION_SECRET" = None ∨
     environ !! "SESSION_SECRET" = Some "") ∧
  (snd (SESSION_SECRET_HEX environ token_hex) = true →
   fst (SESSION_SECRET_HEX environ token_hex) = token_hex) ∧
  (snd (SESSION_SECRET_HEX environ token_hex) = false →
   environ !! "SESSION_SECRET" = Some (fst (SESSION_SECRET_HEX environ token_hex)) ∧
   fst (SESSION_SECRET_HEX environ token_hex) ≠ "").
Proof.
  unfold SESSION_SECRET_HEX.
  destruct (environ !! "SESSION_SECRET") as [[|c s]|]; simpl;
    repeat split; try done; try (by left); try (by right);
    intros [[=]|[=]].
Qed.

Lemma session_secret_fallback_witness :
  fst (SESSION_SECRET_HEX {["SESSION_SECRET" := ""]} "00ff") = "00ff".
Proof.
  apply (proj1 (proj2 (session_secret_fallback
                         {["SESSION_SECRET" := ""]} "00ff"))).
  reflexivity.
Defined.

(** ** Further properties: duplicated user names *)

(** X22. [login] checks the password against the first record with the
    name and no other: when that record's hash rejects the password the
    answer is 401 and the session is untouched, whatever records follow,
    also a later record with the same name whose hash would accept it. *)
Theorem login_checks_first_record_only
    (bcrypt_verify : option string → string → result bool)
    data w n p l1 u h l2 :
  USERS w = (l1 ++ u :: l2)%list →
  Forall (λ v : dict, ∃ m, v !! "username" = Some m ∧ Some m ≠ Some n) l1 →
  u !! "username" = Some n → u !! "password" = Some h →
  data !! "username" = Some n → data !! "password" = Some p →
  bcrypt_verify (Some p) h = Ok false →
  login bcrypt_verify data w = (Ok invalid_credentials, w).
Proof.
  intros HU Hl1 Hn Hh Hdn Hdp Hv.
  unfold login, find_user_by_username. unfold_M.
  rewrite Hdn, HU, first_with_username_app by done. simpl. unfold_M.
  rewrite (getitem_Some _ _ _ Hn). simpl. rewrite bool_decide_eq_true_2 by done.
  rewrite bool_decide_eq_false_2 by by eapply record_ok_nonempty.
  by rewrite (getitem_Some _ _ _ Hh), Hdp, Hv.
Qed.

Lemma login_checks_first_record_only_witness :
  login marker_verify {["username" := "x"; "password" := "second"]}
    (mkWorld [ mk_user "id-1" "x" "$first" "X" "x@ejemplo.com" "usuario";
               mk_user "id-2" "x" "$second" "X" "x@ejemplo.com" "admin" ] ∅)
  = (Ok invalid_credentials,
     mkWorld [ mk_user "id-1" "x" "$first" "X" "x@ejemplo.com" "usuario";
               mk_user "id-2" "x" "$second" "X" "x@ejemplo.com" "admin" ] ∅).
Proof.
  apply (login_checks_first_record_only marker_verify _ _ "x" "second" []
           (mk_user "id-1" "x" "$first" "X" "x@ejemplo.com" "usuario")
           "$first"
           [ mk_user "id-2" "x" "$second" "X" "x@ejemplo.com" "admin" ]);
    try reflexivity.
  constructor.
Defined.
